(** * Dummy_Agent: the start-up routine of the greeting agent

    A shallow embedding of [Dummy_Agent/__main__.py].  The module has one
    function, [main], which instantiates a handful of framework classes and
    hands the result to [uvicorn.run].  The classes and [uvicorn.run] belong
    to imported packages; here every call [main] makes is recorded, the
    object store it builds is explicit, and whether a call raises is left to
    a parameter of the development. *)

From stdpp Require Import base strings list gmap.
From Stdlib Require Import ZArith Ascii.

Local Open Scope string_scope.

(** ** Python objects *)

(** A reference to an object in the store. *)
Definition ref := nat.

(** An exception, identified by a description of it. *)
Definition exn := string.

(** Keyword arguments of [AgentSkill(...)]. *)
Module AgentSkill.
Record t := mk {
  id : string;
  name : string;
  description : string;
  tags : list string;
  examples : list string
}.
End AgentSkill.

(** [AgentCapabilities] is declared by the imported package with optional
    fields only; an instance is described by the keyword arguments that its
    constructor call gives explicitly. *)
Module AgentCapabilities.
Record t := mk { explicit : gmap string bool }.

Definition enabled (c : t) (capability : string) : bool :=
  bool_decide (explicit c !! capability = Some true).
End AgentCapabilities.

(** Keyword arguments of [AgentCard(...)].  [skills] is a Python list of
    references and [capabilities] a reference: the card shares the objects
    it is given. *)
Module AgentCard.
Record t := mk {
  name : string;
  description : string;
  url : string;
  defaultInputModes : list string;
  defaultOutputModes : list string;
  skills : list ref;
  version : string;
  capabilities : ref
}.
End AgentCard.

(** Keyword arguments of [DefaultRequestHandler(...)]. *)
Module DefaultRequestHandler.
Record t := mk { agent_executor : ref; task_store : ref }.
End DefaultRequestHandler.

(** Keyword arguments of [A2AStarletteApplication(...)]. *)
Module A2AStarletteApplication.
Record t := mk { http_handler : ref; agent_card : ref }.
End A2AStarletteApplication.

(** An object of the store: its class and what it was constructed from. *)
Inductive object : Type :=
| OAgentSkill (kw : AgentSkill.t)
| OAgentCapabilities (kw : AgentCapabilities.t)
| OAgentCard (kw : AgentCard.t)
| OGreetingAgentExecutor
| OInMemoryTaskStore
| ODefaultRequestHandler (kw : DefaultRequestHandler.t)
| OA2AStarletteApplication (kw : A2AStarletteApplication.t)
| OStarlette (server : ref).

(** ** Calls into the imported packages *)

Inductive call : Type :=
| New (o : object)                                  (* a class called with keyword arguments *)
| Build (server : ref)                              (* server.build() *)
| UvicornRun (app : ref) (host : string) (port : Z). (* uvicorn.run(app, host=, port=) *)

Definition is_run (c : call) : bool :=
  match c with UvicornRun _ _ _ => true | _ => false end.

(** One entry of the history of an execution: the call, the exception it
    raised if it did, and the store right after it. *)
Record event := Event {
  ev_call : call;
  ev_raised : option exn;
  ev_heap : list object
}.

Record world := World {
  heap : list object;
  history : list event
}.

(** ** The monad of Python statements: a store, a history, exceptions *)

Inductive result (A : Type) : Type :=
| Returned (a : A)
| Raised (e : exn).
Arguments Returned {A} a.
Arguments Raised {A} e.

Definition M (A : Type) : Type := world → result A * world.

#[export] Instance M_ret : MRet M := λ A a w, (Returned a, w).

#[export] Instance M_bind : MBind M := λ A B k m w,
  match m w with
  | (Returned a, w') => k a w'
  | (Raised e, w') => (Raised e, w')
  end.

Definition observe (c : call) (raised : option exn) (h : list object)
    (w : world) : world :=
  {| heap := h; history := history w ++ [Event c raised h] |}.

Section Framework.

(** Whether a call into the imported packages raises, given the store it
    is made in.  [None]: the call completes. *)
Variable raises : list object → call → option exn.

(** A class called with keyword arguments: a new object, at a new
    reference. *)
Definition instantiate (o : object) : M ref := λ w,
  match raises (heap w) (New o) with
  | Some e => (Raised e, observe (New o) (Some e) (heap w) w)
  | None => (Returned (length (heap w)), observe (New o) None (heap w ++ [o]) w)
  end.

(** [server.build()]: a new ASGI application made from [server]. *)
Definition build (server : ref) : M ref := λ w,
  match raises (heap w) (Build server) with
  | Some e => (Raised e, observe (Build server) (Some e) (heap w) w)
  | None =>
      (Returned (length (heap w)),
       observe (Build server) None (heap w ++ [OStarlette server]) w)
  end.

(** [uvicorn.run(app, host=host, port=port)]: returns [None] when the
    server has shut down, or raises.  The call enters the history when it
    ends, like every other call; while the server is serving, the call has
    not ended, and nothing below says that it ever does. *)
Definition uvicorn_run (app : ref) (host : string) (port : Z) : M unit := λ w,
  match raises (heap w) (UvicornRun app host port) with
  | Some e => (Raised e, observe (UvicornRun app host port) (Some e) (heap w) w)
  | None => (Returned (), observe (UvicornRun app host port) None (heap w) w)
  end.

(** ** [main] *)

Definition main : M unit :=
  greeting_skill ← instantiate (OAgentSkill {|
    AgentSkill.id := "hello_world";
    AgentSkill.name := "Greet";
    AgentSkill.description := "Return a greeting";
    AgentSkill.tags := ["greeting"; "hello"; "world"];
    AgentSkill.examples := ["Hey"; "Hi"; "Hello"]
  |});
  capabilities ← instantiate (OAgentCapabilities (AgentCapabilities.mk ∅));
  agent_card ← instantiate (OAgentCard {|
    AgentCard.name := "Greeting Agent";
    AgentCard.description := "A simple agent that returns a greeting";
    AgentCard.url := "http://localhost:9999/";
    AgentCard.defaultInputModes := ["text"];
    AgentCard.defaultOutputModes := ["text"];
    AgentCard.skills := [greeting_skill];
    AgentCard.version := "1.0.0";
    AgentCard.capabilities := capabilities
  |});
  agent_executor ← instantiate OGreetingAgentExecutor;
  task_store ← instantiate OInMemoryTaskStore;
  request_handler ← instantiate (ODefaultRequestHandler {|
    DefaultRequestHandler.agent_executor := agent_executor;
    DefaultRequestHandler.task_store := task_store
  |});
  server ← instantiate (OA2AStarletteApplication {|
    A2AStarletteApplication.http_handler := request_handler;
    A2AStarletteApplication.agent_card := agent_card
  |});
  app ← build server;
  uvicorn_run app "0.0.0.0" 9999%Z.

(** An execution of [main]: the objects [h0] exist already, nothing has
    been called yet. *)
Definition execute (h0 : list object) : result unit * world :=
  main (World h0 []).

Definition outcome (h0 : list object) : result unit := (execute h0).1.
Definition final (h0 : list object) : world := (execute h0).2.

(** The objects that an execution of [main] has constructed: those of the
    final store that were not in the initial one. *)
Definition constructed (h0 : list object) (r : ref) (o : object) : Prop :=
  (length h0 ≤ r)%nat ∧ heap (final h0) !! r = Some o.

End Framework.

(** The calls of [uvicorn.run] in a history, in order. *)
Definition run_calls (w : world) : list call :=
  List.filter is_run (ev_call <$> history w).

(** No call other than [uvicorn.run] has raised. *)
Definition startup_completes (w : world) : bool :=
  forallb (λ ev, is_run (ev_call ev) ||
                 match ev_raised ev with None => true | Some _ => false end)
          (history w).

(** The descriptor objects: the instances of the classes of [a2a.types]. *)
Definition is_descriptor (o : object) : bool :=
  match o with
  | OAgentSkill _ | OAgentCapabilities _ | OAgentCard _ => true
  | _ => false
  end.

(** ** Reading a URL

    The host name and the port of a URL [scheme://host:port/path], as
    [urllib.parse.urlsplit] gives them for such a URL. *)

(** [s] up to the first [sep], and what follows that [sep] if there is one. *)
Fixpoint split_at (sep : Ascii.ascii) (s : string) : string * option string :=
  match s with
  | EmptyString => (EmptyString, None)
  | String c s' =>
      if Ascii.eqb c sep then (EmptyString, Some s')
      else let '(before, after) := split_at sep s' in (String c before, after)
  end.

(** What follows the first "://" of [s]. *)
Fixpoint after_scheme (s : string) : option string :=
  match s with
  | String ":"%char (String "/"%char (String "/"%char rest)) => Some rest
  | String _ s' => after_scheme s'
  | EmptyString => None
  end.

Definition netloc (url : string) : option string :=
  rest ← after_scheme url; Some (split_at "/"%char rest).1.

Definition digit (c : Ascii.ascii) : option Z :=
  let n := Z.of_N (Ascii.N_of_ascii c) in
  if decide (48 ≤ n ≤ 57)%Z then Some (n - 48)%Z else None.

Fixpoint decimal_from (acc : Z) (s : string) : option Z :=
  match s with
  | EmptyString => Some acc
  | String c s' => d ← digit c; decimal_from (10 * acc + d)%Z s'
  end.

Definition decimal (s : string) : option Z :=
  match s with
  | EmptyString => None
  | _ => decimal_from 0 s
  end.

Definition url_hostname (url : string) : option string :=
  authority ← netloc url; Some (split_at ":"%char authority).1.

Definition url_port (url : string) : option Z :=
  authority ← netloc url;
  digits ← (split_at ":"%char authority).2;
  decimal digits.

(** ** Comparing executions

    Two executions that start from stores of different sizes construct their
    objects at different references.  [shift_call d] moves every reference
    of a call [d] places up, so that calls of two executions can be compared
    with each one moved by the size of the other's initial store. *)

Definition shift_object (d : nat) (o : object) : object :=
  match o with
  | OAgentCard kw =>
      OAgentCard {|
        AgentCard.name := AgentCard.name kw;
        AgentCard.description := AgentCard.description kw;
        AgentCard.url := AgentCard.url kw;
        AgentCard.defaultInputModes := AgentCard.defaultInputModes kw;
        AgentCard.defaultOutputModes := AgentCard.defaultOutputModes kw;
        AgentCard.skills := (λ r, r + d) <$> AgentCard.skills kw;
        AgentCard.version := AgentCard.version kw;
        AgentCard.capabilities := AgentCard.capabilities kw + d
      |}
  | ODefaultRequestHandler kw =>
      ODefaultRequestHandler {|
        DefaultRequestHandler.agent_executor :=
          DefaultRequestHandler.agent_executor kw + d;
        DefaultRequestHandler.task_store :=
          DefaultRequestHandler.task_store kw + d
      |}
  | OA2AStarletteApplication kw =>
      OA2AStarletteApplication {|
        A2AStarletteApplication.http_handler :=
          A2AStarletteApplication.http_handler kw + d;
        A2AStarletteApplication.agent_card :=
          A2AStarletteApplication.agent_card kw + d
      |}
  | OStarlette server => OStarlette (server + d)
  | OAgentSkill _ | OAgentCapabilities _
  | OGreetingAgentExecutor | OInMemoryTaskStore => o
  end.

Definition shift_call (d : nat) (c : call) : call :=
  match c with
  | New o => New (shift_object d o)
  | Build server => Build (server + d)
  | UvicornRun app host port => UvicornRun (app + d) host port
  end.

(** ** Sample behaviours of the imported packages *)

(** No call raises. *)
Definition never_raises : list object → call → option exn :=
  λ _ _, None.

(** [uvicorn.run] fails (the port is taken, say); the constructors complete. *)
Definition run_fails : list object → call → option exn :=
  λ _ c, if is_run c then Some "bind failure" else None.

(** The package rejects the agent card. *)
Definition card_rejected : list object → call → option exn :=
  λ _ c,
    match c with
    | New (OAgentCard _) => Some "malformed descriptor"
    | _ => None
    end.

Local Close Scope string_scope.

(** ** The shape of an execution

    [main] has no branch: an execution is determined by the number of calls
    that complete.  The two lists below are what [main] has built and called
    when every call completes; [execute_shape] proves that every execution
    is a prefix of them. *)

Definition greeting_skill_kw : AgentSkill.t :=
  AgentSkill.mk "hello_world" "Greet" "Return a greeting"
    ["greeting"; "hello"; "world"]%string ["Hey"; "Hi"; "Hello"]%string.

Definition agent_card_kw (greeting_skill capabilities : ref) : AgentCard.t :=
  AgentCard.mk "Greeting Agent" "A simple agent that returns a greeting"
    "http://localhost:9999/" ["text"%string] ["text"%string] [greeting_skill]
    "1.0.0" capabilities.

(** The objects of a complete start-up, the first of them at reference [b]. *)
Definition startup_objects (b : ref) : list object :=
  [ OAgentSkill greeting_skill_kw;
    OAgentCapabilities (AgentCapabilities.mk ∅);
    OAgentCard (agent_card_kw b (1 + b));
    OGreetingAgentExecutor;
    OInMemoryTaskStore;
    ODefaultRequestHandler (DefaultRequestHandler.mk (3 + b) (4 + b));
    OA2AStarletteApplication (A2AStarletteApplication.mk (5 + b) (2 + b));
    OStarlette (6 + b) ].

(** The calls of a complete start-up, in order. *)
Definition startup_calls (b : ref) : list call :=
  (New <$> take 7 (startup_objects b)) ++
  [Build (6 + b); UvicornRun (7 + b) "0.0.0.0" 9999%Z].

(** The store once the first [n] calls have completed. *)
Definition heap_after (h0 : list object) (n : nat) : list object :=
  h0 ++ take n (startup_objects (length h0)).

(** The history once the first [n] calls have completed. *)
Definition completed (h0 : list object) (n : nat) : list event :=
  imap (λ k c, Event c None (heap_after h0 (S k)))
       (take n (startup_calls (length h0))).

(** An execution that stops at the call of index [n], which raises [e]. *)
Definition stopped (h0 : list object) (n : nat) (c : call) (e : exn) :
    result unit * world :=
  (Raised e,
   World (heap_after h0 n)
         (completed h0 n ++ [Event c (Some e) (heap_after h0 n)])).

(** The execution in which every call completes. *)
Definition served (h0 : list object) : result unit * world :=
  (Returned (), World (heap_after h0 9) (completed h0 9)).

Section Shape.

Variable raises : list object → call → option exn.

(** What an execution from [h0] can be. *)
Inductive shape (h0 : list object) : result unit * world → Prop :=
| shape_stopped (n : nat) (c : call) (e : exn) :
    startup_calls (length h0) !! n = Some c →
    raises (heap_after h0 n) c = Some e →
    shape h0 (stopped h0 n c e)
| shape_served :
    (∀ n c, startup_calls (length h0) !! n = Some c →
            raises (heap_after h0 n) c = None) →
    shape h0 (served h0).

(** One step of [main], from a store [h0 ++ l] whose new part is [l]. *)
Lemma instantiate_then {B} (o : object) (k : ref → M B)
    (h0 l : list object) (hist : list event) :
  (instantiate raises o ≫= k) (World (h0 ++ l) hist) =
  match raises (h0 ++ l) (New o) with
  | Some e => (Raised e, World (h0 ++ l) (hist ++ [Event (New o) (Some e) (h0 ++ l)]))
  | None =>
      k (length l + length h0)
        (World (h0 ++ (l ++ [o]))
               (hist ++ [Event (New o) None (h0 ++ (l ++ [o]))]))
  end.
Proof.
  unfold mbind, M_bind, instantiate, observe. cbn [heap history].
  destruct (raises _ _); [done |].
  by rewrite length_app, Nat.add_comm, <- app_assoc.
Qed.

Lemma build_then {B} (server : ref) (k : ref → M B)
    (h0 l : list object) (hist : list event) :
  (build raises server ≫= k) (World (h0 ++ l) hist) =
  match raises (h0 ++ l) (Build server) with
  | Some e =>
      (Raised e, World (h0 ++ l) (hist ++ [Event (Build server) (Some e) (h0 ++ l)]))
  | None =>
      k (length l + length h0)
        (World (h0 ++ (l ++ [OStarlette server]))
               (hist ++ [Event (Build server) None
                               (h0 ++ (l ++ [OStarlette server]))]))
  end.
Proof.
  unfold mbind, M_bind, build, observe. cbn [heap history].
  destruct (raises _ _); [done |].
  by rewrite length_app, Nat.add_comm, <- app_assoc.
Qed.

Ltac case_raises :=
  match goal with
  | |- context [raises ?h ?c] => destruct (raises h c) eqn:?
  end.

Ltac stop_at n :=
  match goal with
  | H : raises _ ?c = Some ?e |- _ =>
      apply (shape_stopped _ n c e); [reflexivity | exact H]
  end.

Lemma execute_shape (h0 : list object) : shape h0 (execute raises h0).
Proof.
  unfold execute, main. rewrite <- (app_nil_r h0) at 2.
  do 7 (rewrite instantiate_then; cbn [length app Nat.add];
        case_raises; [shelve |]).
  rewrite build_then; cbn [length app Nat.add]; case_raises; [shelve |].
  unfold uvicorn_run, observe; cbn [heap history app]; case_raises; [shelve |].
  - apply shape_served. intros n c Hc.
    do 9 (destruct n as [| n]; [injection Hc as <-; assumption |]).
    discriminate.
  Unshelve.
  all: first [stop_at 0 | stop_at 1 | stop_at 2 | stop_at 3 | stop_at 4
             | stop_at 5 | stop_at 6 | stop_at 7 | stop_at 8].
Qed.

End Shape.

(** ** The store of an execution *)

Lemma heap_after_new (h0 : list object) (n k : nat) :
  heap_after h0 n !! (k + length h0) = take n (startup_objects (length h0)) !! k.
Proof.
  unfold heap_after. rewrite lookup_app_r by lia. f_equal. lia.
Qed.

Lemma heap_after_old (h0 : list object) (n : nat) (r : ref) :
  r < length h0 → heap_after h0 n !! r = h0 !! r.
Proof. intros Hr. unfold heap_after. by rewrite lookup_app_l. Qed.

Lemma heap_after_inv (h0 : list object) (n : nat) (r : ref) (o : object) :
  length h0 ≤ r →
  heap_after h0 n !! r = Some o →
  ∃ k, r = k + length h0 ∧ k < n ∧ startup_objects (length h0) !! k = Some o.
Proof.
  intros Hr Ho. exists (r - length h0).
  replace r with ((r - length h0) + length h0) in Ho by lia.
  rewrite heap_after_new in Ho. apply lookup_take_Some in Ho as [Ho Hk].
  split; [lia | done].
Qed.

Lemma heap_after_built (h0 : list object) (n k : nat) (o : object) :
  k < n →
  startup_objects (length h0) !! k = Some o →
  heap_after h0 n !! (k + length h0) = Some o.
Proof.
  intros Hk Ho. rewrite heap_after_new. by apply lookup_take_Some.
Qed.

(** The store only grows: what is at a reference stays there. *)
Lemma heap_after_mono (h0 : list object) (a b : nat) (r : ref) (o : object) :
  a ≤ b →
  heap_after h0 a !! r = Some o →
  heap_after h0 b !! r = Some o.
Proof.
  intros Hab Ho. destruct (decide (r < length h0)) as [Hr | Hr].
  - rewrite heap_after_old in * by done. done.
  - apply heap_after_inv in Ho as (k & -> & Hk & Ho); [| lia].
    apply heap_after_built; [lia | done].
Qed.

(** Case analysis on the index of an object of the start-up. *)
Tactic Notation "startup_object" ident(k) ident(H) :=
  destruct k as [| [| [| [| [| [| [| [| k]]]]]]]];
  [injection H as H .. | discriminate H]; simplify_eq.

(** Case analysis on the index of a call of the start-up. *)
Tactic Notation "startup_call" ident(k) ident(H) :=
  destruct k as [| [| [| [| [| [| [| [| [| k]]]]]]]]];
  [injection H as H .. | discriminate H]; simplify_eq.

Section Executions.

Variable raises : list object → call → option exn.

(** Every execution, read off its history: the event of index [k] is the
    call of index [k] of the start-up; a call that raised is the last one,
    and its exception is the outcome of [main]. *)
Lemma execution_inv (h0 : list object) :
  ∃ n, n ≤ 9 ∧
    heap (final raises h0) = heap_after h0 n ∧
    ∀ k ev, history (final raises h0) !! k = Some ev →
      startup_calls (length h0) !! k = Some (ev_call ev) ∧
      match ev_raised ev with
      | None => k < n ∧ ev_heap ev = heap_after h0 (S k)
      | Some e =>
          k = n ∧ ev_heap ev = heap_after h0 k ∧
          outcome raises h0 = Raised e ∧
          length (history (final raises h0)) = S k
      end.
Proof.
  unfold final, outcome.
  destruct (execute_shape raises h0) as [n c e Hc He | _].
  - assert (n < 9) as Hn by (apply lookup_lt_Some in Hc; done).
    assert (length (completed h0 n) = n) as Hlen.
    { unfold completed. rewrite length_imap, length_take. cbn. lia. }
    exists n. split; [lia |]. split; [done |]. intros k ev Hev.
    cbn [stopped snd fst history] in *.
    apply lookup_snoc_Some in Hev as [[Hk Hev] | [-> <-]].
    + apply list_lookup_imap_Some in Hev as (c' & Hc' & ->).
      apply lookup_take_Some in Hc' as [Hc' Hkn]. done.
    + cbn. rewrite Hlen, length_app, Hlen. cbn. split_and!; (done || lia).
  - exists 9. split; [lia |]. split; [done |]. intros k ev Hev.
    cbn [served snd fst history] in *.
    apply list_lookup_imap_Some in Hev as (c' & Hc' & ->).
    apply lookup_take_Some in Hc' as [Hc' Hkn]. done.
Qed.

Lemma constructed_inv (h0 : list object) (r : ref) (o : object) :
  constructed raises h0 r o →
  ∃ n k, heap (final raises h0) = heap_after h0 n ∧
         r = k + length h0 ∧ k < n ∧
         startup_objects (length h0) !! k = Some o.
Proof.
  intros [Hr Ho]. destruct (execution_inv h0) as (n & _ & Hn & _).
  rewrite Hn in Ho. apply heap_after_inv in Ho as (k & ? & ? & ?); eauto 10.
Qed.

Lemma constructed_built (h0 : list object) (n k : nat) (o : object) :
  heap (final raises h0) = heap_after h0 n →
  k < n →
  startup_objects (length h0) !! k = Some o →
  constructed raises h0 (k + length h0) o.
Proof.
  intros Hn Hk Ho. split; [lia |]. rewrite Hn. by apply heap_after_built.
Qed.

(** C1: the skill descriptor and the agent descriptor that [main]
    constructs equal their literal values.  Whatever the imported packages
    do and whatever the store held before, a skill descriptor constructed by
    an execution of [main] has id "hello_world", name "Greet", description
    "Return a greeting", tags ["greeting", "hello", "world"] and examples
    ["Hey", "Hi", "Hello"]; an agent descriptor constructed by it has name
    "Greeting Agent", description "A simple agent that returns a greeting",
    url "http://localhost:9999/", defaultInputModes ["text"],
    defaultOutputModes ["text"], version "1.0.0", and a skills list with
    exactly one element, the skill descriptor constructed by the same
    execution. *)
Theorem descriptors_equal_literals (h0 : list object) (r : ref) (o : object) :
  constructed raises h0 r o →
  (∀ kw, o = OAgentSkill kw →
     kw = {| AgentSkill.id := "hello_world";
             AgentSkill.name := "Greet";
             AgentSkill.description := "Return a greeting";
             AgentSkill.tags := ["greeting"; "hello"; "world"]%string;
             AgentSkill.examples := ["Hey"; "Hi"; "Hello"]%string |}) ∧
  (∀ kw, o = OAgentCard kw →
     AgentCard.name kw = "Greeting Agent"%string ∧
     AgentCard.description kw = "A simple agent that returns a greeting"%string ∧
     AgentCard.url kw = "http://localhost:9999/"%string ∧
     AgentCard.defaultInputModes kw = ["text"%string] ∧
     AgentCard.defaultOutputModes kw = ["text"%string] ∧
     AgentCard.version kw = "1.0.0"%string ∧
     ∃ s, AgentCard.skills kw = [s] ∧
          constructed raises h0 s (OAgentSkill {|
            AgentSkill.id := "hello_world";
            AgentSkill.name := "Greet";
            AgentSkill.description := "Return a greeting";
            AgentSkill.tags := ["greeting"; "hello"; "world"]%string;
            AgentSkill.examples := ["Hey"; "Hi"; "Hello"]%string |})).
Proof.
  intros Ho. apply constructed_inv in Ho as (n & k & Hn & -> & Hk & Ho).
  startup_object k Ho; (split; intros kw [= <-]); [done |].
  split_and!; try done.
  exists (length h0). split; [done |].
  apply (constructed_built h0 n 0); [done | lia | done].
Qed.

Lemma event_inv (h0 : list object) (ev : event) :
  ev ∈ history (final raises h0) →
  ∃ n k, heap (final raises h0) = heap_after h0 n ∧ k ≤ n ∧
         startup_calls (length h0) !! k = Some (ev_call ev).
Proof.
  intros [k Hev]%list_elem_of_lookup.
  destruct (execution_inv h0) as (n & _ & Hn & Hhist).
  destruct (Hhist k ev Hev) as [Hc Hk]. exists n, k.
  split_and!; [done | | done].
  destruct (ev_raised ev); [lia | lia].
Qed.

(** C10: the capabilities of the agent descriptor are the
    default-constructed ones.  The agent descriptor that an execution of
    [main] constructs refers to a capabilities object constructed by the same
    execution with no keyword argument, so that no capability, streaming and
    push notifications among them, is enabled explicitly. *)
Theorem capabilities_default_constructed
    (h0 : list object) (r : ref) (kw : AgentCard.t) :
  constructed raises h0 r (OAgentCard kw) →
  ∃ caps,
    constructed raises h0 (AgentCard.capabilities kw) (OAgentCapabilities caps) ∧
    AgentCapabilities.explicit caps = ∅ ∧
    AgentCapabilities.enabled caps "streaming" = false ∧
    AgentCapabilities.enabled caps "pushNotifications" = false ∧
    ∀ capability, AgentCapabilities.enabled caps capability = false.
Proof.
  intros Ho. apply constructed_inv in Ho as (n & k & Hn & -> & Hk & Ho).
  startup_object k Ho. exists (AgentCapabilities.mk ∅).
  split; [apply (constructed_built h0 n 1); (done || lia) |].
  split_and!; done.
Qed.

(** C5: the request handler pairs the greeting executor with an in-memory
    task store, both new.  Whenever an execution of [main] calls the
    application builder, the [http_handler] it passes is a request handler
    constructed by this execution, whose [agent_executor] is a
    [GreetingAgentExecutor] and whose [task_store] is an [InMemoryTaskStore],
    both constructed by this execution: neither was in the store before. *)
Theorem handler_pairs_new_executor_and_store
    (h0 : list object) (ev : event) (kw : A2AStarletteApplication.t) :
  ev ∈ history (final raises h0) →
  ev_call ev = New (OA2AStarletteApplication kw) →
  ∃ handler,
    constructed raises h0 (A2AStarletteApplication.http_handler kw)
      (ODefaultRequestHandler handler) ∧
    constructed raises h0 (DefaultRequestHandler.agent_executor handler)
      OGreetingAgentExecutor ∧
    constructed raises h0 (DefaultRequestHandler.task_store handler)
      OInMemoryTaskStore.
Proof.
  intros Hev Hcall. apply event_inv in Hev as (n & k & Hn & Hk & Hc).
  rewrite Hcall in Hc. startup_call k Hc.
  exists (DefaultRequestHandler.mk (3 + length h0) (4 + length h0)).
  split_and!;
    [ apply (constructed_built h0 n 5) | apply (constructed_built h0 n 3)
    | apply (constructed_built h0 n 4) ]; (done || lia).
Qed.

(** C9: the advertised URL and the address the server binds.  Whenever an
    execution of [main] calls [uvicorn.run], the application it passes was
    built from the server that holds the agent descriptor; the port of the
    descriptor's URL is the port passed to the call (9999), and the host name
    of the URL ("localhost") is not the host passed to the call
    ("0.0.0.0"). *)
Theorem advertised_port_is_bound_port
    (h0 : list object) (ev : event) (app : ref) (host : string) (port : Z) :
  ev ∈ history (final raises h0) →
  ev_call ev = UvicornRun app host port →
  ∃ server kw card,
    heap (final raises h0) !! app = Some (OStarlette server) ∧
    heap (final raises h0) !! server = Some (OA2AStarletteApplication kw) ∧
    heap (final raises h0) !! A2AStarletteApplication.agent_card kw =
      Some (OAgentCard card) ∧
    url_port (AgentCard.url card) = Some port ∧
    port = 9999%Z ∧
    url_hostname (AgentCard.url card) = Some "localhost"%string ∧
    host = "0.0.0.0"%string ∧
    url_hostname (AgentCard.url card) ≠ Some host.
Proof.
  intros Hev Hcall. apply event_inv in Hev as (n & k & Hn & Hk & Hc).
  rewrite Hcall in Hc. startup_call k Hc. rewrite Hn.
  exists (6 + length h0), (A2AStarletteApplication.mk (5 + length h0) (2 + length h0)),
    (agent_card_kw (length h0) (1 + length h0)).
  split_and!; try done;
    [ apply (heap_after_built h0 n 7) | apply (heap_after_built h0 n 6)
    | apply (heap_after_built h0 n 2) ]; (done || lia).
Qed.

(** C6: nothing in [main] handles an exception.  Whichever call of an
    execution raises, a constructor, [build] or [uvicorn.run], and whatever
    it raises, that call is the last one [main] makes and its exception is
    the outcome of [main]. *)
Theorem failure_propagates (h0 : list object) (ev : event) (e : exn) :
  ev ∈ history (final raises h0) →
  ev_raised ev = Some e →
  outcome raises h0 = Raised e ∧ last (history (final raises h0)) = Some ev.
Proof.
  intros [k Hev]%list_elem_of_lookup He.
  destruct (execution_inv h0) as (n & _ & _ & Hhist).
  destruct (Hhist k ev Hev) as [_ Hk]. rewrite He in Hk.
  destruct Hk as (_ & _ & Hout & Hlen).
  by rewrite last_lookup, Hlen.
Qed.

(** C8: the descriptors are not modified after their construction.  In
    every execution of [main], a descriptor object (skill, capabilities or
    agent card) that is in the store after some call is still there, at the
    same reference and with the same fields, after every later call, and in
    the final store. *)
Theorem descriptors_never_modified
    (h0 : list object) (i j : nat) (ev_i ev_j : event) (r : ref) (o : object) :
  is_descriptor o = true →
  i ≤ j →
  history (final raises h0) !! i = Some ev_i →
  history (final raises h0) !! j = Some ev_j →
  ev_heap ev_i !! r = Some o →
  ev_heap ev_j !! r = Some o ∧ heap (final raises h0) !! r = Some o.
Proof.
  intros _ Hij Hi Hj Ho.
  destruct (execution_inv h0) as (n & _ & Hn & Hhist).
  destruct (Hhist i ev_i Hi) as [_ Hi'], (Hhist j ev_j Hj) as [_ Hj'].
  rewrite Hn.
  destruct (ev_raised ev_i), (ev_raised ev_j); destruct_and!;
    repeat match goal with
           | H : ev_heap _ = _ |- _ => rewrite H in *; clear H
           end;
    split; (eapply heap_after_mono; [| exact Ho]); lia.
Qed.

(** X10: at most one call of [uvicorn.run], whatever happens.  No
    execution of [main] calls it twice, and none calls it with a host or a
    port other than "0.0.0.0" and 9999. *)
Lemma uvicorn_run_at_most_once (h0 : list object) :
  run_calls (final raises h0) = [] ∨
  ∃ app, run_calls (final raises h0) = [UvicornRun app "0.0.0.0" 9999%Z].
Proof.
  unfold final.
  destruct (execute_shape raises h0) as [n c e Hc He | Hall].
  - startup_call n Hc; (by left) || (right; by eexists).
  - right. by eexists.
Qed.

(** C3, as amended: [uvicorn.run] is called once, with host "0.0.0.0" and
    port 9999, when the start-up completes.  In every execution of [main] in
    which no call before it raises, the history has exactly one call of
    [uvicorn.run]; its host is "0.0.0.0", its port 9999, and its application
    is the one that [build] has made from the server.  Without the condition
    the statement fails: [main] handles no exception, so an execution in
    which a constructor or [build] raises ends before the call
    ([card_rejected_stops]). *)
Theorem uvicorn_run_called_once (h0 : list object) :
  startup_completes (final raises h0) = true →
  ∃ app server kw,
    run_calls (final raises h0) = [UvicornRun app "0.0.0.0" 9999%Z] ∧
    heap (final raises h0) !! app = Some (OStarlette server) ∧
    heap (final raises h0) !! server = Some (OA2AStarletteApplication kw).
Proof.
  unfold final. intros Hok.
  exists (7 + length h0), (6 + length h0),
    (A2AStarletteApplication.mk (5 + length h0) (2 + length h0)).
  destruct (execute_shape raises h0) as [n c e Hc He | Hall].
  - startup_call n Hc; [discriminate Hok .. |].
    split_and!;
      [ done | apply (heap_after_built h0 8 7) | apply (heap_after_built h0 8 6) ];
      (done || lia).
  - split_and!;
      [ done | apply (heap_after_built h0 9 7) | apply (heap_after_built h0 9 6) ];
      (done || lia).
Qed.

End Executions.

(** ** Two executions *)

Lemma startup_objects_shift (b1 b2 k : nat) (o1 o2 : object) :
  startup_objects b1 !! k = Some o1 →
  startup_objects b2 !! k = Some o2 →
  shift_object b2 o1 = shift_object b1 o2.
Proof.
  intros H1 H2.
  startup_object k H1; injection H2 as <-; cbn;
    by rewrite ?(Nat.add_comm b1 b2).
Qed.

Lemma startup_calls_shift (b1 b2 k : nat) (c1 c2 : call) :
  startup_calls b1 !! k = Some c1 →
  startup_calls b2 !! k = Some c2 →
  shift_call b2 c1 = shift_call b1 c2.
Proof.
  intros H1 H2.
  startup_call k H1; injection H2 as <-; cbn;
    by rewrite ?(Nat.add_comm b1 b2).
Qed.

(** C7: [main] is straight-line and deterministic.  Take any two executions
    of [main], whatever the imported packages do in each and whatever their
    stores held before.  The objects they construct in position [k] (the
    skill descriptor, the capabilities, the agent descriptor, the executor,
    the task store, the request handler with its configuration, ...) are the
    same, and so are the calls they make in position [k], [uvicorn.run] with
    its host and port among them: the same class, the same literal fields,
    and references to objects constructed in the same positions. *)
Theorem main_is_deterministic
    (raises1 raises2 : list object → call → option exn)
    (h1 h2 : list object) (k : nat) :
  (∀ o1 o2,
     heap (final raises1 h1) !! (k + length h1) = Some o1 →
     heap (final raises2 h2) !! (k + length h2) = Some o2 →
     shift_object (length h2) o1 = shift_object (length h1) o2) ∧
  (∀ ev1 ev2,
     history (final raises1 h1) !! k = Some ev1 →
     history (final raises2 h2) !! k = Some ev2 →
     shift_call (length h2) (ev_call ev1) = shift_call (length h1) (ev_call ev2)).
Proof.
  split.
  - intros o1 o2 H1 H2.
    assert (constructed raises1 h1 (k + length h1) o1) as C1 by (split; [lia | done]).
    assert (constructed raises2 h2 (k + length h2) o2) as C2 by (split; [lia | done]).
    apply constructed_inv in C1 as (n1 & k1 & _ & Hk1 & _ & Ho1).
    apply constructed_inv in C2 as (n2 & k2 & _ & Hk2 & _ & Ho2).
    assert (k1 = k) as -> by lia. assert (k2 = k) as -> by lia.
    by eapply startup_objects_shift.
  - intros ev1 ev2 H1 H2.
    destruct (execution_inv raises1 h1) as (n1 & _ & _ & Hhist1).
    destruct (execution_inv raises2 h2) as (n2 & _ & _ & Hhist2).
    destruct (Hhist1 k ev1 H1) as [Hc1 _], (Hhist2 k ev2 H2) as [Hc2 _].
    by eapply startup_calls_shift.
Qed.

(** Two executions that start from stores of the same size make the very
    same calls. *)
Corollary same_calls_from_same_store
    (raises1 raises2 : list object → call → option exn)
    (h1 h2 : list object) (k : nat) (ev1 ev2 : event) :
  length h1 = length h2 →
  history (final raises1 h1) !! k = Some ev1 →
  history (final raises2 h2) !! k = Some ev2 →
  ev_call ev1 = ev_call ev2.
Proof.
  intros Hlen H1 H2.
  destruct (execution_inv raises1 h1) as (n1 & _ & _ & Hhist1).
  destruct (execution_inv raises2 h2) as (n2 & _ & _ & Hhist2).
  destruct (Hhist1 k ev1 H1) as [Hc1 _], (Hhist2 k ev2 H2) as [Hc2 _].
  rewrite Hlen in Hc1. congruence.
Qed.

(** ** What [main] adds to the imported packages: nothing that can fail *)

Section Startup.

Variable raises : list object → call → option exn.

(** X11: [main] raises only what one of its calls raises.  When the
    outcome of [main] is an exception, the last call [main] made raised it:
    no statement of [main] fails on its own. *)
Lemma outcome_raised_inv (h0 : list object) (e : exn) :
  outcome raises h0 = Raised e →
  ∃ ev, last (history (final raises h0)) = Some ev ∧ ev_raised ev = Some e.
Proof.
  unfold outcome, final.
  destruct (execute_shape raises h0) as [n c e' Hc He | Hall]; [| done].
  intros [= ->]. eexists. split; [apply last_snoc | done].
Qed.

(** X12: the card handed to the application builder is the one [main] has
    constructed.  Whenever the builder is called, its [agent_card] refers to
    the agent descriptor that the same execution constructed from the
    literal values. *)
Lemma builder_receives_constructed_card
    (h0 : list object) (ev : event) (kw : A2AStarletteApplication.t) :
  ev ∈ history (final raises h0) →
  ev_call ev = New (OA2AStarletteApplication kw) →
  ∃ skill capabilities,
    constructed raises h0 (A2AStarletteApplication.agent_card kw)
      (OAgentCard (agent_card_kw skill capabilities)).
Proof.
  intros Hev Hcall. apply event_inv in Hev as (n & k & Hn & Hk & Hc).
  rewrite Hcall in Hc. startup_call k Hc.
  exists (length h0), (1 + length h0).
  apply (constructed_built raises h0 n 2); (done || lia).
Qed.

End Startup.

(** ** Concrete executions *)

Example every_call_completes : execute never_raises [] = served [].
Proof. reflexivity. Qed.

Example port_taken :
  outcome run_fails [] = Raised "bind failure"%string ∧
  run_calls (final run_fails []) = [UvicornRun 7 "0.0.0.0" 9999%Z].
Proof. split; reflexivity. Qed.

(** C3, as stated, fails here: when the package rejects the agent card,
    [main] stops at that call with the exception as its outcome, and
    [uvicorn.run] is called not once but never. *)
Example card_rejected_stops :
  outcome card_rejected [] = Raised "malformed descriptor"%string ∧
  length (history (final card_rejected [])) = 3 ∧
  startup_completes (final card_rejected []) = false ∧
  run_calls (final card_rejected []) = [].
Proof. repeat split; reflexivity. Qed.

Example advertised_url_read :
  url_hostname "http://localhost:9999/" = Some "localhost"%string ∧
  url_port "http://localhost:9999/" = Some 9999%Z.
Proof. split; reflexivity. Qed.

(** The agent card of an execution that starts from a store of one object
    and ends with [uvicorn.run] failing. *)
Lemma descriptors_equal_literals_witness :
  constructed run_fails [OInMemoryTaskStore] 3 (OAgentCard (agent_card_kw 1 2)) ∧
  AgentCard.url (agent_card_kw 1 2) = "http://localhost:9999/"%string ∧
  AgentCard.version (agent_card_kw 1 2) = "1.0.0"%string.
Proof.
  assert (constructed run_fails [OInMemoryTaskStore] 3
            (OAgentCard (agent_card_kw 1 2))) as H
    by (split; [cbn; lia | reflexivity]).
  split; [exact H |].
  destruct (descriptors_equal_literals run_fails _ _ _ H) as [_ Hcard].
  destruct (Hcard _ eq_refl) as (_ & _ & Hurl & _ & _ & Hversion & _).
  exact (conj Hurl Hversion).
Defined.

(** An execution in which only [uvicorn.run] fails has called it once. *)
Lemma uvicorn_run_called_once_witness :
  startup_completes (final run_fails []) = true ∧
  ∃ app server kw,
    run_calls (final run_fails []) = [UvicornRun app "0.0.0.0" 9999%Z] ∧
    heap (final run_fails []) !! app = Some (OStarlette server) ∧
    heap (final run_fails []) !! server = Some (OA2AStarletteApplication kw).
Proof.
  split; [reflexivity |].
  apply (uvicorn_run_called_once run_fails []). reflexivity.
Defined.

(** The request handler of the execution in which every call completes. *)
Lemma handler_pairs_new_executor_and_store_witness :
  ∃ handler,
    constructed never_raises [] 5 (ODefaultRequestHandler handler) ∧
    constructed never_raises []
      (DefaultRequestHandler.agent_executor handler) OGreetingAgentExecutor ∧
    constructed never_raises []
      (DefaultRequestHandler.task_store handler) OInMemoryTaskStore.
Proof.
  apply (handler_pairs_new_executor_and_store never_raises []
           (Event (New (OA2AStarletteApplication (A2AStarletteApplication.mk 5 2)))
                  None (heap_after [] 7))
           (A2AStarletteApplication.mk 5 2)).
  - apply list_elem_of_lookup_2 with 6. reflexivity.
  - reflexivity.
Defined.

(** A bind failure is the outcome of [main]. *)
Lemma failure_propagates_witness :
  outcome run_fails [] = Raised "bind failure"%string ∧
  last (history (final run_fails [])) =
    Some (Event (UvicornRun 7 "0.0.0.0" 9999%Z) (Some "bind failure"%string)
                (heap_after [] 8)).
Proof.
  apply (failure_propagates run_fails []).
  - apply list_elem_of_lookup_2 with 8. reflexivity.
  - reflexivity.
Defined.

(** An execution from the empty store in which every call completes,
    against one from a store of one object in which [uvicorn.run] fails. *)
Lemma main_is_deterministic_witness :
  shift_object 1 (OAgentCard (agent_card_kw 0 1)) =
    shift_object 0 (OAgentCard (agent_card_kw 1 2)) ∧
  shift_call 1 (UvicornRun 7 "0.0.0.0" 9999%Z) =
    shift_call 0 (UvicornRun 8 "0.0.0.0" 9999%Z).
Proof.
  split.
  - apply (proj1 (main_is_deterministic never_raises run_fails
                    [] [OInMemoryTaskStore] 2)); reflexivity.
  - apply (proj2 (main_is_deterministic never_raises run_fails
                    [] [OInMemoryTaskStore] 8)
             (Event (UvicornRun 7 "0.0.0.0" 9999%Z) None (heap_after [] 9))
             (Event (UvicornRun 8 "0.0.0.0" 9999%Z) (Some "bind failure"%string)
                    (heap_after [OInMemoryTaskStore] 8))); reflexivity.
Defined.

(** The agent card, from its construction to the end of the execution. *)
Lemma descriptors_never_modified_witness :
  heap_after [] 9 !! 2 = Some (OAgentCard (agent_card_kw 0 1)) ∧
  heap (final never_raises []) !! 2 = Some (OAgentCard (agent_card_kw 0 1)).
Proof.
  apply (descriptors_never_modified never_raises [] 2 8
           (Event (New (OAgentCard (agent_card_kw 0 1))) None (heap_after [] 3))
           (Event (UvicornRun 7 "0.0.0.0" 9999%Z) None (heap_after [] 9)));
    (reflexivity || lia).
Defined.

(** The address advertised and the address bound, when the bind fails. *)
Lemma advertised_port_is_bound_port_witness :
  ∃ server kw card,
    heap (final run_fails []) !! 7 = Some (OStarlette server) ∧
    heap (final run_fails []) !! server = Some (OA2AStarletteApplication kw) ∧
    heap (final run_fails []) !! A2AStarletteApplication.agent_card kw =
      Some (OAgentCard card) ∧
    url_port (AgentCard.url card) = Some 9999%Z ∧
    9999%Z = 9999%Z ∧
    url_hostname (AgentCard.url card) = Some "localhost"%string ∧
    "0.0.0.0"%string = "0.0.0.0"%string ∧
    url_hostname (AgentCard.url card) ≠ Some "0.0.0.0"%string.
Proof.
  apply (advertised_port_is_bound_port run_fails []
           (Event (UvicornRun 7 "0.0.0.0" 9999%Z) (Some "bind failure"%string)
                  (heap_after [] 8))).
  - apply list_elem_of_lookup_2 with 8. reflexivity.
  - reflexivity.
Defined.

(** The capabilities of the card of the execution in which every call
    completes. *)
Lemma capabilities_default_constructed_witness :
  ∃ caps,
    constructed never_raises [] 1 (OAgentCapabilities caps) ∧
    AgentCapabilities.explicit caps = ∅ ∧
    AgentCapabilities.enabled caps "streaming" = false ∧
    AgentCapabilities.enabled caps "pushNotifications" = false ∧
    ∀ capability, AgentCapabilities.enabled caps capability = false.
Proof.
  apply (capabilities_default_constructed never_raises [] 2 (agent_card_kw 0 1)).
  split; [cbn; lia | reflexivity].
Defined.

(** * Beyond the claims: more of what [main] does *)

(** A call that leaves a new object in the store: a constructor or [build]
    that has completed. *)
Definition allocates (ev : event) : bool :=
  negb (is_run (ev_call ev)) &&
  match ev_raised ev with None => true | Some _ => false end.

(** The references that an object holds. *)
Definition refs_of (o : object) : list ref :=
  match o with
  | OAgentCard kw => AgentCard.skills kw ++ [AgentCard.capabilities kw]
  | ODefaultRequestHandler kw =>
      [DefaultRequestHandler.agent_executor kw;
       DefaultRequestHandler.task_store kw]
  | OA2AStarletteApplication kw =>
      [A2AStarletteApplication.http_handler kw;
       A2AStarletteApplication.agent_card kw]
  | OStarlette server => [server]
  | OAgentSkill _ | OAgentCapabilities _
  | OGreetingAgentExecutor | OInMemoryTaskStore => []
  end.

Section Summary.

Variable raises : list object → call → option exn.

(** An execution in numbers: [n] calls have completed, or all nine. *)
Lemma execution_summary (h0 : list object) :
  ∃ n, n ≤ 9 ∧
    heap (final raises h0) = heap_after h0 n ∧
    length (history (final raises h0)) = S (n `min` 8) ∧
    startup_completes (final raises h0) = bool_decide (8 ≤ n) ∧
    (outcome raises h0 = Returned () ↔ n = 9) ∧
    (n < 9 → ∃ ev e, last (history (final raises h0)) = Some ev ∧
                     ev_raised ev = Some e) ∧
    ∀ k ev, history (final raises h0) !! k = Some ev →
      startup_calls (length h0) !! k = Some (ev_call ev) ∧
      match ev_raised ev with
      | None => k < n ∧ ev_heap ev = heap_after h0 (S k)
      | Some e => k = n ∧ n < 9 ∧ ev_heap ev = heap_after h0 k
      end.
Proof.
  unfold final, outcome.
  destruct (execute_shape raises h0) as [n c e Hc He | _].
  - assert (n < 9) as Hn by (apply lookup_lt_Some in Hc; done).
    assert (length (completed h0 n) = n) as Hlen.
    { unfold completed. rewrite length_imap, length_take. cbn. lia. }
    exists n. split; [lia |]. split; [done |].
    cbn [stopped snd fst history].
    split; [rewrite length_app, Hlen; cbn; lia |].
    split; [startup_call n Hc; reflexivity |].
    split; [split; [done | lia] |].
    split; [intros _; eexists _, e; split; [apply last_snoc | done] |].
    intros k ev Hev.
    apply lookup_snoc_Some in Hev as [[Hk Hev] | [-> <-]].
    + apply list_lookup_imap_Some in Hev as (c' & Hc' & ->).
      apply lookup_take_Some in Hc' as [Hc' Hkn]. done.
    + cbn. rewrite Hlen. done.
  - exists 9. split; [lia |]. split; [done |].
    cbn [served snd fst history].
    split; [done |]. split; [done |]. split; [done |].
    split; [lia |]. intros k ev Hev.
    apply list_lookup_imap_Some in Hev as (c' & Hc' & ->).
    apply lookup_take_Some in Hc' as [Hc' Hkn]. done.
Qed.

End Summary.

Section MoreOfMain.

Variable raises : list object → call → option exn.

(** X1: [main] leaves alone what was in the store before it.  An object
    that the store holds when [main] starts is at the same reference,
    unchanged, after every call of the execution and in the final store,
    whether [main] returns or raises. *)
Theorem initial_store_untouched (h0 : list object) (r : ref) (o : object) :
  h0 !! r = Some o →
  heap (final raises h0) !! r = Some o ∧
  ∀ ev, ev ∈ history (final raises h0) → ev_heap ev !! r = Some o.
Proof.
  intros Ho. assert (r < length h0) as Hr by (by eapply lookup_lt_Some).
  destruct (execution_summary raises h0) as (n & _ & Hn & _ & _ & _ & _ & Hhist).
  split; [by rewrite Hn, heap_after_old |].
  intros ev [k Hev]%list_elem_of_lookup.
  destruct (Hhist k ev Hev) as [_ Hk].
  destruct (ev_raised ev); destruct_and!;
    match goal with H : ev_heap _ = _ |- _ => rewrite H end;
    by rewrite heap_after_old.
Qed.

(** X2: the server is started last, and only on a complete start-up.  If
    an execution of [main] calls [uvicorn.run] at all, then every earlier
    call has completed, the call is the ninth and last one, and the eight
    objects of the start-up are in the store. *)
Theorem server_started_last (h0 : list object) (ev : event) :
  ev ∈ history (final raises h0) →
  is_run (ev_call ev) = true →
  startup_completes (final raises h0) = true ∧
  last (history (final raises h0)) = Some ev ∧
  length (history (final raises h0)) = 9 ∧
  length (heap (final raises h0)) = length h0 + 8.
Proof.
  intros [k Hev]%list_elem_of_lookup Hrun.
  destruct (execution_summary raises h0)
    as (n & Hn9 & Hn & Hlen & Hok & _ & _ & Hhist).
  destruct (Hhist k ev Hev) as [Hc Hk].
  assert (k = 8) as ->.
  { destruct (ev_call ev); try discriminate Hrun. by startup_call k Hc. }
  assert (8 ≤ n) as Hn8 by (destruct (ev_raised ev); lia).
  rewrite Hok, Hlen, Hn, last_lookup, Hlen.
  replace (n `min` 8) with 8 by lia.
  split_and!; [by apply bool_decide_eq_true | done | done |].
  unfold heap_after. rewrite length_app, length_take. cbn. lia.
Qed.

(** X4: one object per completed constructor.  In every execution the
    store has grown by exactly as many objects as there are completed calls
    of a constructor or of [build]; a call that raises, and [uvicorn.run],
    add none. *)
Theorem one_object_per_completed_call (h0 : list object) :
  length (heap (final raises h0)) =
  length h0 + length (List.filter allocates (history (final raises h0))).
Proof.
  unfold final.
  destruct (execute_shape raises h0) as [n c e Hc He | _];
    cbn [stopped served snd heap history]; unfold heap_after;
    rewrite length_app.
  - startup_call n Hc; reflexivity.
  - reflexivity.
Qed.

(** X5: the objects [main] constructs refer only to objects it has
    constructed before them.  Every reference held by a constructed object
    is to an object constructed earlier in the same execution: none dangles,
    none points into the initial store, and none points forward. *)
Theorem references_point_backwards
    (h0 : list object) (r r' : ref) (o : object) :
  constructed raises h0 r o →
  r' ∈ refs_of o →
  r' < r ∧ ∃ o', constructed raises h0 r' o'.
Proof.
  intros Ho Hr'. apply constructed_inv in Ho as (n & k & Hn & -> & Hk & Ho).
  startup_object k Ho; cbn in Hr';
    repeat (apply elem_of_cons in Hr' as [-> | Hr']);
    try (by apply elem_of_nil in Hr');
    (split; [lia |]); eexists.
  - apply (constructed_built raises h0 n 0); (done || lia).
  - apply (constructed_built raises h0 n 1); (done || lia).
  - apply (constructed_built raises h0 n 3); (done || lia).
  - apply (constructed_built raises h0 n 4); (done || lia).
  - apply (constructed_built raises h0 n 5); (done || lia).
  - apply (constructed_built raises h0 n 2); (done || lia).
  - apply (constructed_built raises h0 n 6); (done || lia).
Qed.

End MoreOfMain.

(** * The module: its imports and its entry point

    [__main__.py] runs six import statements, defines [main] and calls it
    when the module's [__name__] is "__main__".  An import statement either
    completes or raises; which, is left to a parameter, as for the calls of
    [main]. *)

Local Open Scope string_scope.

(** One import statement that has run: the module named, the names taken
    from it (none for a plain [import]), the exception raised if any. *)
Record import_event := Imported {
  im_module : string;
  im_names : list string;
  im_raised : option exn
}.

(** The interpreter while it runs the module: the import statements run so
    far, and the store and history of the calls. *)
Record session := Session {
  imports : list import_event;
  state : world
}.

Definition MM (A : Type) : Type := session → result A * session.

#[export] Instance MM_ret : MRet MM := λ A a s, (Returned a, s).

#[export] Instance MM_bind : MBind MM := λ A B k m s,
  match m s with
  | (Returned a, s') => k a s'
  | (Raised e, s') => (Raised e, s')
  end.

(** No import statement has raised. *)
Definition imports_completed (s : session) : bool :=
  forallb (λ im, match im_raised im with None => true | Some _ => false end)
          (imports s).

Section Module.

(** Whether an import statement raises, given the ones that ran before. *)
Variable import_raises :
  list import_event → string → list string → option exn.

Variable raises : list object → call → option exn.

(** [from module import names] *)
Definition import_from (module : string) (names : list string) : MM unit :=
  λ s,
    let raised := import_raises (imports s) module names in
    (match raised with Some e => Raised e | None => Returned () end,
     Session (imports s ++ [Imported module names raised]) (state s)).

(** [import module] *)
Definition import_module (module : string) : MM unit :=
  import_from module [].

(** [main()], called from the module. *)
Definition call_main : MM unit := λ s,
  let '(r, w) := main raises (state s) in (r, Session (imports s) w).

Definition main_module (name : string) : MM unit :=
  import_from "a2a.types" ["AgentCard"; "AgentSkill"; "AgentCapabilities"];;
  import_from "a2a.server.request_handlers" ["DefaultRequestHandler"];;
  import_from "agent_executor" ["GreetingAgentExecutor"];;
  import_from "a2a.server.tasks" ["InMemoryTaskStore"];;
  import_from "a2a.server.apps" ["A2AStarletteApplication"];;
  import_module "uvicorn";;
  if decide (name = "__main__") then call_main else mret ().

(** The module run under the name [name], from the store [h0]. *)
Definition load (name : string) (h0 : list object) : result unit * session :=
  main_module name (Session [] (World h0 [])).

End Module.

(** ** Sample behaviours of the import statements *)

Definition imports_succeed :
    list import_event → string → list string → option exn :=
  λ _ _ _, None.

(** The package of the agent executor is not on the path. *)
Definition executor_missing :
    list import_event → string → list string → option exn :=
  λ _ module _,
    if decide (module = "agent_executor") then Some "ModuleNotFoundError"
    else None.

Local Close Scope string_scope.

(** The import statements of the module, in order, and the record of the
    first [n] of them having completed; [load_shape] proves that every run of
    the module follows them. *)
Definition module_imports : list (string * list string) :=
  [ ("a2a.types", ["AgentCard"; "AgentSkill"; "AgentCapabilities"]);
    ("a2a.server.request_handlers", ["DefaultRequestHandler"]);
    ("agent_executor", ["GreetingAgentExecutor"]);
    ("a2a.server.tasks", ["InMemoryTaskStore"]);
    ("a2a.server.apps", ["A2AStarletteApplication"]);
    ("uvicorn", []) ]%string.

Definition import_log (n : nat) : list import_event :=
  (λ i, Imported i.1 i.2 None) <$> take n module_imports.

Section ModuleProperties.

Variable import_raises :
  list import_event → string → list string → option exn.
Variable raises : list object → call → option exn.

(** What a run of the module can be: an import fails and nothing else
    happens; or the six imports complete and, by the name, [main] is or is
    not called. *)
Inductive loaded (name : string) (h0 : list object) :
    result unit * session → Prop :=
| loaded_import_failed (n : nat) (module : string) (names : list string)
      (e : exn) :
    module_imports !! n = Some (module, names) →
    import_raises (import_log n) module names = Some e →
    loaded name h0
      (Raised e,
       Session (import_log n ++ [Imported module names (Some e)]) (World h0 []))
| loaded_imported :
    name ≠ "__main__"%string →
    loaded name h0 (Returned (), Session (import_log 6) (World h0 []))
| loaded_ran :
    name = "__main__"%string →
    loaded name h0
      ((execute raises h0).1, Session (import_log 6) (execute raises h0).2).

Ltac import_step :=
  unfold mbind at 1, MM_bind at 1, import_from at 1;
  cbn [imports state app];
  match goal with
  | |- context [import_raises ?l ?m ?ns] =>
      destruct (import_raises l m ns) eqn:?
  end.

Ltac failed_at n :=
  match goal with
  | H : import_raises _ ?m ?ns = Some ?e |- _ =>
      apply (loaded_import_failed _ _ n m ns e); [reflexivity | exact H]
  end.

Lemma load_shape (name : string) (h0 : list object) :
  loaded name h0 (load import_raises raises name h0).
Proof.
  unfold load, main_module, import_module.
  do 6 (import_step; [shelve |]).
  - case_decide as Hname.
    + pose proof (loaded_ran name h0 Hname) as Hran.
      unfold execute in Hran. unfold call_main. cbn [imports state].
      by destruct (main raises _).
    + by apply loaded_imported.
  Unshelve.
  all: first [failed_at 0 | failed_at 1 | failed_at 2 | failed_at 3
             | failed_at 4 | failed_at 5].
Qed.

Lemma import_log_raised (n : nat) (im : import_event) :
  im ∈ import_log n → im_raised im = None.
Proof. by intros (i & -> & _)%list_elem_of_fmap. Qed.

(** X6: importing the module starts nothing.  Run under any name other
    than "__main__", the module makes no call into the packages and leaves
    the store as it was, whether its imports succeed or not. *)
Theorem nothing_runs_on_import (name : string) (h0 : list object) :
  name ≠ "__main__"%string →
  state (load import_raises raises name h0).2 = World h0 [].
Proof.
  intros Hname. by destruct (load_shape name h0).
Qed.

(** X7: [main] runs only as the entry point and only after the imports.
    If a run of the module has made any call into the packages, then its
    name is "__main__", the six import statements have completed, in the
    order of the source, and the calls and the store are those of an
    execution of [main]. *)
Theorem main_runs_after_imports
    (name : string) (h0 : list object) (ev : event) :
  ev ∈ history (state (load import_raises raises name h0).2) →
  name = "__main__"%string ∧
  imports (load import_raises raises name h0).2 =
    [ Imported "a2a.types" ["AgentCard"; "AgentSkill"; "AgentCapabilities"]%string None;
      Imported "a2a.server.request_handlers" ["DefaultRequestHandler"%string] None;
      Imported "agent_executor" ["GreetingAgentExecutor"%string] None;
      Imported "a2a.server.tasks" ["InMemoryTaskStore"%string] None;
      Imported "a2a.server.apps" ["A2AStarletteApplication"%string] None;
      Imported "uvicorn" [] None ] ∧
  state (load import_raises raises name h0).2 = final raises h0.
Proof.
  destruct (load_shape name h0); cbn [snd state history imports];
    intros Hev; [by apply elem_of_nil in Hev .. | done].
Qed.

(** X8: a failing import ends the run.  Whichever import statement raises,
    and whatever it raises, it is the last statement the module runs, its
    exception is the outcome of the run, and [main] has not been called:
    no call is in the history and the store is as it was. *)
Theorem import_failure_propagates
    (name : string) (h0 : list object) (im : import_event) (e : exn) :
  im ∈ imports (load import_raises raises name h0).2 →
  im_raised im = Some e →
  (load import_raises raises name h0).1 = Raised e ∧
  last (imports (load import_raises raises name h0).2) = Some im ∧
  state (load import_raises raises name h0).2 = World h0 [].
Proof.
  destruct (load_shape name h0); cbn [fst snd state imports]; intros Him He.
  - apply elem_of_app in Him as [Him | ->%list_elem_of_singleton].
    + apply import_log_raised in Him. congruence.
    + injection He as <-. by rewrite last_snoc.
  - apply import_log_raised in Him. congruence.
  - apply import_log_raised in Him. congruence.
Qed.

(** X9: run as the entry point, the module is [main].  When the module's
    name is "__main__" and no import raises, the six imports have run and
    the outcome, the calls and the store of the run are those of an
    execution of [main] from the same store. *)
Theorem script_run_is_main (name : string) (h0 : list object) :
  name = "__main__"%string →
  imports_completed (load import_raises raises name h0).2 = true →
  (load import_raises raises name h0).1 = outcome raises h0 ∧
  state (load import_raises raises name h0).2 = final raises h0 ∧
  length (imports (load import_raises raises name h0).2) = 6.
Proof.
  intros Hname.
  destruct (load_shape name h0) as [n module names e Hn He | |];
    cbn [fst snd state imports]; intros Hok; [| done | done].
  destruct n as [| [| [| [| [| [| n]]]]]]; discriminate.
Qed.

End ModuleProperties.

(** ** Concrete runs *)

Example imported_as_a_package_module :
  load imports_succeed never_raises "Dummy_Agent.__main__" [] =
  (Returned (), Session (import_log 6) (World [] [])).
Proof. reflexivity. Qed.

Example executor_package_missing :
  load executor_missing never_raises "__main__" [] =
  (Raised "ModuleNotFoundError"%string,
   Session (import_log 2 ++
            [Imported "agent_executor" ["GreetingAgentExecutor"%string]
                      (Some "ModuleNotFoundError"%string)])
           (World [] [])).
Proof. reflexivity. Qed.

(** A store of one object; [uvicorn.run] fails. *)
Lemma initial_store_untouched_witness :
  heap (final run_fails [OInMemoryTaskStore]) !! 0 = Some OInMemoryTaskStore ∧
  ∀ ev, ev ∈ history (final run_fails [OInMemoryTaskStore]) →
        ev_heap ev !! 0 = Some OInMemoryTaskStore.
Proof.
  apply (initial_store_untouched run_fails [OInMemoryTaskStore] 0).
  reflexivity.
Defined.

(** The ninth call of the execution in which only [uvicorn.run] fails. *)
Lemma server_started_last_witness :
  startup_completes (final run_fails []) = true ∧
  last (history (final run_fails [])) =
    Some (Event (UvicornRun 7 "0.0.0.0" 9999%Z) (Some "bind failure"%string)
                (heap_after [] 8)) ∧
  length (history (final run_fails [])) = 9 ∧
  length (heap (final run_fails [])) = length (@nil object) + 8.
Proof.
  apply (server_started_last run_fails []).
  - apply list_elem_of_lookup_2 with 8. reflexivity.
  - reflexivity.
Defined.

(** The request handler and its executor. *)
Lemma references_point_backwards_witness :
  3 < 5 ∧ ∃ o', constructed never_raises [] 3 o'.
Proof.
  apply (references_point_backwards never_raises [] 5 3
           (ODefaultRequestHandler (DefaultRequestHandler.mk 3 4))).
  - split; [cbn; lia | reflexivity].
  - apply list_elem_of_here.
Defined.

(** The module imported under its package name. *)
Lemma nothing_runs_on_import_witness :
  state (load imports_succeed never_raises "Dummy_Agent.__main__" []).2 =
  World [] [].
Proof.
  apply (nothing_runs_on_import imports_succeed never_raises
           "Dummy_Agent.__main__" []).
  discriminate.
Defined.

(** The first call of a run as the entry point. *)
Lemma main_runs_after_imports_witness :
  "__main__"%string = "__main__"%string ∧
  imports (load imports_succeed never_raises "__main__" []).2 =
    [ Imported "a2a.types" ["AgentCard"; "AgentSkill"; "AgentCapabilities"]%string None;
      Imported "a2a.server.request_handlers" ["DefaultRequestHandler"%string] None;
      Imported "agent_executor" ["GreetingAgentExecutor"%string] None;
      Imported "a2a.server.tasks" ["InMemoryTaskStore"%string] None;
      Imported "a2a.server.apps" ["A2AStarletteApplication"%string] None;
      Imported "uvicorn" [] None ] ∧
  state (load imports_succeed never_raises "__main__" []).2 =
    final never_raises [].
Proof.
  apply (main_runs_after_imports imports_succeed never_raises "__main__" []
           (Event (New (OAgentSkill greeting_skill_kw)) None (heap_after [] 1))).
  apply list_elem_of_lookup_2 with 0. reflexivity.
Defined.

(** The third import fails. *)
Lemma import_failure_propagates_witness :
  (load executor_missing never_raises "__main__" []).1 =
    Raised "ModuleNotFoundError"%string ∧
  last (imports (load executor_missing never_raises "__main__" []).2) =
    Some (Imported "agent_executor" ["GreetingAgentExecutor"%string]
                   (Some "ModuleNotFoundError"%string)) ∧
  state (load executor_missing never_raises "__main__" []).2 = World [] [].
Proof.
  apply (import_failure_propagates executor_missing never_raises "__main__" []).
  - apply list_elem_of_lookup_2 with 2. reflexivity.
  - reflexivity.
Defined.

(** The entry point, with the port taken. *)
Lemma script_run_is_main_witness :
  (load imports_succeed run_fails "__main__" []).1 = outcome run_fails [] ∧
  state (load imports_succeed run_fails "__main__" []).2 = final run_fails [] ∧
  length (imports (load imports_succeed run_fails "__main__" []).2) = 6.
Proof.
  apply (script_run_is_main imports_succeed run_fails "__main__" []);
    reflexivity.
Defined.

(** The bind failure is what [main] raises. *)
Lemma outcome_raised_inv_witness :
  ∃ ev, last (history (final run_fails [])) = Some ev ∧
        ev_raised ev = Some "bind failure"%string.
Proof.
  apply (outcome_raised_inv run_fails [] "bind failure"%string). reflexivity.
Defined.

(** The card that reaches the builder when every call completes. *)
Lemma builder_receives_constructed_card_witness :
  ∃ skill capabilities,
    constructed never_raises [] 2 (OAgentCard (agent_card_kw skill capabilities)).
Proof.
  apply (builder_receives_constructed_card never_raises []
           (Event (New (OA2AStarletteApplication (A2AStarletteApplication.mk 5 2)))
                  None (heap_after [] 7))
           (A2AStarletteApplication.mk 5 2)).
  - apply list_elem_of_lookup_2 with 6. reflexivity.
  - reflexivity.
Defined.
